(** * Coinbase mappers of tardis-node: a shallow embedding and its properties

    The development follows [src/mappers/coinbase.ts]: the three mappers
    ([coinbaseTradesMapper], [CoinbaseBookChangMapper],
    [coinbaseBookTickerMapper]) and the helper [pruneObject].

    ECMAScript built-ins the mappers call ([Date.parse] behind [new Date],
    [Number] on strings, [String] on numbers) are Section variables: every
    theorem holds for whatever a conforming engine computes.  Module
    [Reference] gives concrete instances used to run the mappers on examples. *)

From Stdlib Require Import ZArith String Ascii List Bool Lia.
From Stdlib Require Import Floats.SpecFloat.
From stdpp Require Import base option list strings gmap.

Set Warnings "-register-all".

Local Open Scope string_scope.
Local Open Scope Z_scope.

(** ** ECMAScript values *)

Module JS.

(** A Number is an IEEE 754 binary64 value. *)
Definition number : Type := spec_float.

Definition prec : Z := 53.
Definition emax : Z := 1024.

Definition zero : number := S754_zero false.
Definition NaN : number := S754_nan.

(** [Number.isNaN] *)
Definition isNaN (x : number) : bool :=
  match x with S754_nan => true | _ => false end.

(** The relational operators on Numbers; a comparison with NaN is false. *)
Definition lt (x y : number) : bool := SFltb x y.
Definition ge (x y : number) : bool := SFleb y x.

(** The Number for an integer, rounded to nearest even. *)
Definition of_Z (z : Z) : number := binary_normalize prec emax z 0 false.

(** The time value of a Date: an integral number of milliseconds since the
    epoch, or NaN ([None]) for an Invalid Date. *)
Definition timeValue : Type := option Z.

(** [t < 0] on a time value; false for NaN. *)
Definition timeValue_negative (t : timeValue) : bool :=
  match t with Some ms => ms <? 0 | None => false end.

(** A Date object, with the [μs] property tardis-node attaches to it
    ([None] while the property has not been assigned).  The mappers assign
    [μs] only to a Date they have just created and never write to a Date
    again once it is yielded or cached, so a Date is a value here. *)
Record Date : Type := mkDate { valueOf : timeValue; μs : option number }.

(** Values met in the free-form part of a message. *)
Inductive value : Type :=
| VUndefined
| VNull
| VBoolean (b : bool)
| VNumber (n : number)
| VString (s : string)
| VArray (items : list value)
| VObject (props : list (string * value)).

(** An object as its own enumerable properties, in property order. *)
Definition object : Type := list (string * value).

(** [delete obj[key]] *)
Definition delete_property (key : string) (obj : object) : object :=
  List.filter (fun kv => negb (String.eqb (fst kv) key)) obj.

End JS.

Import JS.

(** ** Normalized events ([../types], as the object literals of the mappers
    build them) *)

(** ['buy' | 'sell'] *)
Inductive Side : Type := buy | sell.

Definition Side_eqb (a b : Side) : bool :=
  match a, b with
  | buy, buy | sell, sell => true
  | _, _ => false
  end.

Definition Side_tag (s : Side) : string :=
  match s with buy => "buy" | sell => "sell" end.

Record BookPriceLevel : Type := mkLevel { price : number; amount : number }.

Module Trade.
Record t : Type := mk {
  type : string;
  symbol : string;
  exchange : string;
  id : string;
  price : number;
  amount : number;
  side : Side;
  timestamp : Date;
  localTimestamp : Date;
  exchangeSpecific : JS.object
}.
End Trade.

Module BookChange.
Record t : Type := mk {
  type : string;
  symbol : string;
  exchange : string;
  isSnapshot : bool;
  bids : list BookPriceLevel;
  asks : list BookPriceLevel;
  timestamp : Date;
  localTimestamp : Date
}.
End BookChange.

Module BookTicker.
Record t : Type := mk {
  type : string;
  symbol : string;
  exchange : string;
  askAmount : option number;
  askPrice : option number;
  bidPrice : option number;
  bidAmount : option number;
  timestamp : Date;
  localTimestamp : Date
}.
End BookTicker.

(** A subscription filter: a channel and the symbols asked for
    ([None] is [undefined]: no restriction). *)
Module Filter.
Record t : Type := mk {
  channel : string;
  symbols : option (list string)
}.
End Filter.

(** ** Exchange messages (the type declarations that close coinbase.ts) *)

Module CoinbaseTrade.
(** [rest] holds the further properties that [[key: string]: any] allows. *)
Record t : Type := mk {
  trade_id : number;
  time : string;
  product_id : string;
  size : string;
  price : string;
  side : Side;
  rest : JS.object
}.

(** The message as an object: its own properties.  A list has to put them
    in some order and the declared ones come first here; the order in a
    received message is the sender's, and no statement below relies on the
    one chosen here.  An object has each key once: see [distinct_keys]. *)
Definition props (m : t) : JS.object :=
  ("type", VString "match") ::
  ("trade_id", VNumber (trade_id m)) ::
  ("time", VString (time m)) ::
  ("product_id", VString (product_id m)) ::
  ("size", VString (size m)) ::
  ("price", VString (price m)) ::
  ("side", VString (Side_tag (side m))) ::
  rest m.
End CoinbaseTrade.

(** [[string, string]]: price first, amount second. *)
Definition CoinbaseSnapshotBookLevel : Type := (string * string)%type.

Module CoinbaseLevel2Snapshot.
Record t : Type := mk {
  product_id : string;
  bids : list CoinbaseSnapshotBookLevel;
  asks : list CoinbaseSnapshotBookLevel;
  time : option string
}.
End CoinbaseLevel2Snapshot.

(** [['buy' | 'sell', string, string]]: side, price, amount. *)
Definition CoinbaseUpdateBookLevel : Type := (Side * string * string)%type.

Module CoinbaseLevel2Update.
Record t : Type := mk {
  product_id : string;
  time : string;
  changes : list CoinbaseUpdateBookLevel
}.
End CoinbaseLevel2Update.

Module CoinbaseTicker.
(** Only the properties the mapper reads.  [time] is declared a string, but
    the mapper tests it against [undefined], so it is optional here. *)
Record t : Type := mk {
  product_id : string;
  time : option string;
  best_bid : option string;
  best_ask : option string;
  best_bid_size : option string;
  best_ask_size : option string
}.
End CoinbaseTicker.

(** What the feed delivers; [message_type] is the [type] discriminant. *)
Inductive CoinbaseMessage : Type :=
| Match (m : CoinbaseTrade.t)
| Snapshot (m : CoinbaseLevel2Snapshot.t)
| L2Update (m : CoinbaseLevel2Update.t)
| Ticker (m : CoinbaseTicker.t).

Definition message_type (message : CoinbaseMessage) : string :=
  match message with
  | Match _ => "match"
  | Snapshot _ => "snapshot"
  | L2Update _ => "l2update"
  | Ticker _ => "ticker"
  end.

(** ** Helpers *)

(** [String.prototype.toUpperCase] on ASCII text, which product ids are. *)
Definition ascii_toUpperCase (c : ascii) : ascii :=
  let n := N_of_ascii c in
  if ((97 <=? n) && (n <=? 122))%N then ascii_of_N (n - 32) else c.

Fixpoint toUpperCase (s : string) : string :=
  match s with
  | EmptyString => EmptyString
  | String c s' => String (ascii_toUpperCase c) (toUpperCase s')
  end.

(** Modelled from the spec: [upperCaseSymbols] is imported from [../handy],
    which is not among the sources.  The spec has it uppercase every symbol
    of the list and give [undefined] when no symbols are requested. *)
Definition upperCaseSymbols (symbols : option (list string))
  : option (list string) :=
  match symbols with
  | Some l => Some (List.map toUpperCase l)
  | None => None
  end.

(** [pruneObject]: a copy of [obj] without the excluded keys. *)
Definition pruneObject (obj : JS.object) (exclusionKeys : list string)
  : JS.object :=
  let result := obj in
  fold_left (fun result key => delete_property key result) exclusionKeys result.

Definition CoinbaseTradeExcluded : list string :=
  ["type"; "trade_id"; "product_id"; "size"; "price"; "side"].

Section Dates.
Variable Date_parse : string -> timeValue.

(** [new Date(arg)] for a string or [undefined] argument; the latter gives
    an Invalid Date. *)
Definition new_Date (arg : option string) : Date :=
  {| valueOf := match arg with Some s => Date_parse s | None => None end;
     μs := None |}.
End Dates.

(** [timestamp.μs = v] *)
Definition set_μs (timestamp : Date) (v : number) : Date :=
  {| valueOf := valueOf timestamp; μs := Some v |}.

(** ** The trade mapper *)

Module coinbaseTradesMapper.
Section Mapper.
Variable Date_parse : string -> timeValue.
Variable StringToNumber : string -> number.
Variable NumberToString : number -> string.
Variable parseμs : string -> number.

Definition canHandle (message : CoinbaseMessage) : bool :=
  String.eqb (message_type message) "match".

Definition getFilters (symbols : option (list string)) : list Filter.t :=
  let symbols := upperCaseSymbols symbols in
  [ {| Filter.channel := "match"; Filter.symbols := symbols |} ].

Definition map (message : CoinbaseTrade.t) (localTimestamp : Date)
  : list Trade.t :=
  let timestamp := new_Date Date_parse (Some (CoinbaseTrade.time message)) in
  let timestamp := set_μs timestamp (parseμs (CoinbaseTrade.time message)) in
  [ {| Trade.type := "trade";
       Trade.symbol := CoinbaseTrade.product_id message;
       Trade.exchange := "coinbase";
       Trade.id := NumberToString (CoinbaseTrade.trade_id message);
       Trade.price := StringToNumber (CoinbaseTrade.price message);
       Trade.amount := StringToNumber (CoinbaseTrade.size message);
       Trade.side :=
         if Side_eqb (CoinbaseTrade.side message) sell then buy else sell;
       Trade.timestamp := timestamp;
       Trade.localTimestamp := localTimestamp;
       Trade.exchangeSpecific :=
         pruneObject (CoinbaseTrade.props message) CoinbaseTradeExcluded |} ].
End Mapper.
End coinbaseTradesMapper.

(** ** The book-change mapper *)

Section BookLevels.
Variable StringToNumber : string -> number.

Definition mapUpdateBookLevel (level : CoinbaseUpdateBookLevel)
  : BookPriceLevel :=
  let '(_, level1, level2) := level in
  let price := StringToNumber level1 in
  let amount := StringToNumber level2 in
  {| price := price; amount := amount |}.

Definition mapSnapshotBookLevel (level : CoinbaseSnapshotBookLevel)
  : BookPriceLevel :=
  let '(level0, level1) := level in
  let price := StringToNumber level0 in
  let amount := StringToNumber level1 in
  {| price := price; amount := amount |}.
End BookLevels.

Definition validAmountsOnly (level : BookPriceLevel) : bool :=
  if JS.isNaN (amount level) then false
  else if JS.lt (amount level) JS.zero then false
  else true.

Module CoinbaseBookChangMapper.

(** The messages [map] accepts. *)
Inductive message : Type :=
| snapshot (m : CoinbaseLevel2Snapshot.t)
| l2update (m : CoinbaseLevel2Update.t).

Definition product_id (msg : message) : string :=
  match msg with
  | snapshot m => CoinbaseLevel2Snapshot.product_id m
  | l2update m => CoinbaseLevel2Update.product_id m
  end.

Section Mapper.
Variable Date_parse : string -> timeValue.
Variable StringToNumber : string -> number.
Variable parseμs : string -> number.

Definition canHandle (message : CoinbaseMessage) : bool :=
  String.eqb (message_type message) "l2update"
  || String.eqb (message_type message) "snapshot".

Definition getFilters (symbols : option (list string)) : list Filter.t :=
  let symbols := upperCaseSymbols symbols in
  [ {| Filter.channel := "snapshot"; Filter.symbols := symbols |};
    {| Filter.channel := "l2update"; Filter.symbols := symbols |} ].

(** [map] runs the generator to its end: the events it yields, in order, and
    [_symbolLastTimestampMap] as the call leaves it. *)
Definition map (_symbolLastTimestampMap : gmap string Date)
    (msg : message) (localTimestamp : Date)
  : list BookChange.t * gmap string Date :=
  match msg with
  | snapshot message =>
      let timestamp :=
        match CoinbaseLevel2Snapshot.time message with
        | Some time =>
            let timestamp := new_Date Date_parse (Some time) in
            if timeValue_negative (valueOf timestamp) then localTimestamp
            else set_μs timestamp (parseμs time)
        | None => localTimestamp
        end in
      ([ {| BookChange.type := "book_change";
            BookChange.symbol := CoinbaseLevel2Snapshot.product_id message;
            BookChange.exchange := "coinbase";
            BookChange.isSnapshot := true;
            BookChange.bids :=
              List.filter validAmountsOnly
                (List.map (mapSnapshotBookLevel StringToNumber)
                   (CoinbaseLevel2Snapshot.bids message));
            BookChange.asks :=
              List.filter validAmountsOnly
                (List.map (mapSnapshotBookLevel StringToNumber)
                   (CoinbaseLevel2Snapshot.asks message));
            BookChange.timestamp := timestamp;
            BookChange.localTimestamp := localTimestamp |} ],
       _symbolLastTimestampMap)
  | l2update message =>
      let yield timestamp :=
        {| BookChange.type := "book_change";
           BookChange.symbol := CoinbaseLevel2Update.product_id message;
           BookChange.exchange := "coinbase";
           BookChange.isSnapshot := false;
           BookChange.bids :=
             List.map (mapUpdateBookLevel StringToNumber)
               (List.filter (fun c => Side_eqb (fst (fst c)) buy)
                  (CoinbaseLevel2Update.changes message));
           BookChange.asks :=
             List.map (mapUpdateBookLevel StringToNumber)
               (List.filter (fun c => Side_eqb (fst (fst c)) sell)
                  (CoinbaseLevel2Update.changes message));
           BookChange.timestamp := timestamp;
           BookChange.localTimestamp := localTimestamp |} in
      let timestamp :=
        new_Date Date_parse (Some (CoinbaseLevel2Update.time message)) in
      if timeValue_negative (valueOf timestamp) then
        let previousValidTimestamp :=
          _symbolLastTimestampMap !! CoinbaseLevel2Update.product_id message in
        match previousValidTimestamp with
        | None => ([], _symbolLastTimestampMap)
        | Some previousValidTimestamp =>
            let timestamp := previousValidTimestamp in
            ([ yield timestamp ], _symbolLastTimestampMap)
        end
      else
        let timestamp :=
          set_μs timestamp (parseμs (CoinbaseLevel2Update.time message)) in
        ([ yield timestamp ],
         <[ CoinbaseLevel2Update.product_id message := timestamp ]>
           _symbolLastTimestampMap)
  end.

(** A mapper instance starts with an empty cache and is fed one message
    after the other. *)
Definition init : gmap string Date := ∅.

Fixpoint run (cache : gmap string Date) (calls : list (message * Date))
  : list BookChange.t * gmap string Date :=
  match calls with
  | [] => ([], cache)
  | (msg, localTimestamp) :: calls' =>
      let '(events, cache') := map cache msg localTimestamp in
      let '(events', cache'') := run cache' calls' in
      ((events ++ events')%list, cache'')
  end.
End Mapper.
End CoinbaseBookChangMapper.

(** ** The book-ticker mapper *)

Module coinbaseBookTickerMapper.
Section Mapper.
Variable Date_parse : string -> timeValue.
Variable StringToNumber : string -> number.
Variable parseμs : string -> number.

Definition canHandle (message : CoinbaseMessage) : bool :=
  String.eqb (message_type message) "ticker".

Definition getFilters (symbols : option (list string)) : list Filter.t :=
  let symbols := upperCaseSymbols symbols in
  [ {| Filter.channel := "ticker"; Filter.symbols := symbols |} ].

Definition map (message : CoinbaseTicker.t) (localTimestamp : Date)
  : list BookTicker.t :=
  let timestamp := new_Date Date_parse (CoinbaseTicker.time message) in
  let timestamp :=
    match CoinbaseTicker.time message with
    | None => localTimestamp
    | Some time =>
        if timeValue_negative (valueOf timestamp) then localTimestamp
        else set_μs timestamp (parseμs time)
    end in
  [ {| BookTicker.type := "book_ticker";
       BookTicker.symbol := CoinbaseTicker.product_id message;
       BookTicker.exchange := "coinbase";
       BookTicker.askAmount :=
         option_map StringToNumber (CoinbaseTicker.best_ask_size message);
       BookTicker.askPrice :=
         option_map StringToNumber (CoinbaseTicker.best_ask message);
       BookTicker.bidPrice :=
         option_map StringToNumber (CoinbaseTicker.best_bid message);
       BookTicker.bidAmount :=
         option_map StringToNumber (CoinbaseTicker.best_bid_size message);
       BookTicker.timestamp := timestamp;
       BookTicker.localTimestamp := localTimestamp |} ].
End Mapper.
End coinbaseBookTickerMapper.

(** ** The trade mapper on a message without [time]

    [CoinbaseTrade] declares [time] a string, and [coinbaseTradesMapper.map]
    above is the mapper on the messages of that type.  A received message is
    not checked against the declaration: what follows is the same code on a
    message whose [time] may be missing, where [message.time] reads
    [undefined] and a call may end in an exception. *)

(** The exception a call may end with. *)
Inductive exception : Type := TypeError.

Module ReceivedTrade.
Record t : Type := mk {
  trade_id : number;
  time : option string;
  product_id : string;
  size : string;
  price : string;
  side : Side;
  rest : JS.object
}.

Definition props (m : t) : JS.object :=
  ("type", VString "match") ::
  ("trade_id", VNumber (trade_id m)) ::
  match time m with
  | Some text => [("time", VString text)]
  | None => []
  end ++
  ("product_id", VString (product_id m)) ::
  ("size", VString (size m)) ::
  ("price", VString (price m)) ::
  ("side", VString (Side_tag (side m))) ::
  rest m.

(** A message of the declared type, as received. *)
Definition of_declared (m : CoinbaseTrade.t) : t :=
  {| trade_id := CoinbaseTrade.trade_id m;
     time := Some (CoinbaseTrade.time m);
     product_id := CoinbaseTrade.product_id m;
     size := CoinbaseTrade.size m;
     price := CoinbaseTrade.price m;
     side := CoinbaseTrade.side m;
     rest := CoinbaseTrade.rest m |}.
End ReceivedTrade.

Module coinbaseTradesMapperReceived.
Section Mapper.
Variable Date_parse : string -> timeValue.
Variable StringToNumber : string -> number.
Variable NumberToString : number -> string.
Variable parseμs : string -> number.
(** How the call [parseμs(undefined)] ends. *)
Variable parseμs_undefined : (exception + number)%type.

(** [parseμs(arg)] for a string or [undefined] argument. *)
Definition call_parseμs (arg : option string) : (exception + number)%type :=
  match arg with
  | Some dateString => inr (parseμs dateString)
  | None => parseμs_undefined
  end.

(** [map] run to its end: the exception raised before anything is yielded,
    or the events yielded. *)
Definition map (message : ReceivedTrade.t) (localTimestamp : Date)
  : (exception + list Trade.t)%type :=
  let timestamp := new_Date Date_parse (ReceivedTrade.time message) in
  match call_parseμs (ReceivedTrade.time message) with
  | inl thrown => inl thrown
  | inr remainder =>
      let timestamp := set_μs timestamp remainder in
      inr
        [ {| Trade.type := "trade";
             Trade.symbol := ReceivedTrade.product_id message;
             Trade.exchange := "coinbase";
             Trade.id := NumberToString (ReceivedTrade.trade_id message);
             Trade.price := StringToNumber (ReceivedTrade.price message);
             Trade.amount := StringToNumber (ReceivedTrade.size message);
             Trade.side :=
               if Side_eqb (ReceivedTrade.side message) sell then buy
               else sell;
             Trade.timestamp := timestamp;
             Trade.localTimestamp := localTimestamp;
             Trade.exchangeSpecific :=
               pruneObject (ReceivedTrade.props message)
                 CoinbaseTradeExcluded |} ]
  end.
End Mapper.
End coinbaseTradesMapperReceived.

(** ** Reference instances of the built-ins

    Concrete functions for the Section variables above, on the fragment of
    inputs the Coinbase feed uses.  They serve to run the mappers on
    examples; no general theorem depends on them. *)

Module Reference.

Definition digit (c : ascii) : option Z :=
  let n := Z.of_N (N_of_ascii c) in
  if (48 <=? n) && (n <=? 57) then Some (n - 48) else None.

(** Exactly [n] decimal digits. *)
Fixpoint digits (n : nat) (acc : Z) (cs : list ascii)
  : option (Z * list ascii) :=
  match n with
  | O => Some (acc, cs)
  | S n' =>
      match cs with
      | c :: cs' =>
          match digit c with
          | Some d => digits n' (10 * acc + d) cs'
          | None => None
          end
      | [] => None
      end
  end.

Definition expect (c : ascii) (cs : list ascii) : option (list ascii) :=
  match cs with
  | c' :: cs' => if Ascii.eqb c c' then Some cs' else None
  | [] => None
  end.

(** The digits of a fraction, weighted [scale], [scale / 10], ...: with
    [scale = 100] the first three digits make the milliseconds and the
    following ones are dropped. *)
Fixpoint fraction (cs : list ascii) (scale acc : Z) : Z * list ascii :=
  match cs with
  | c :: cs' =>
      match digit c with
      | Some d => fraction cs' (scale / 10) (acc + d * scale)
      | None => (acc, cs)
      end
  | [] => (acc, cs)
  end.

Definition InLeapYear (y : Z) : bool :=
  ((y mod 4 =? 0) && negb (y mod 100 =? 0)) || (y mod 400 =? 0).

Definition DaysInMonth (y m : Z) : Z :=
  if m =? 2 then (if InLeapYear y then 29 else 28)
  else if (m =? 4) || (m =? 6) || (m =? 9) || (m =? 11) then 30
  else 31.

(** Days between the epoch and a day of the proleptic Gregorian calendar. *)
Definition MakeDay (year month date : Z) : Z :=
  let y := if month <=? 2 then year - 1 else year in
  let era := y / 400 in
  let yoe := y - era * 400 in
  let mp := if month <=? 2 then month + 9 else month - 3 in
  let doy := (153 * mp + 2) / 5 + date - 1 in
  let doe := yoe * 365 + yoe / 4 - yoe / 100 + doy in
  era * 146097 + doe - 719468.

Definition MakeTime (hour min sec ms : Z) : Z :=
  ((hour * 60 + min) * 60 + sec) * 1000 + ms.

Definition MakeDate (day time : Z) : Z := day * 86400000 + time.

(** [Date.parse] on [YYYY-MM-DDTHH:mm:ss[.f...]Z]; fraction digits past the
    third are dropped.  Any other text gives NaN, as the standard allows. *)
Definition Date_parse (s : string) : timeValue :=
  '(year, cs) ← digits 4 0 (list_ascii_of_string s);
  cs ← expect "-" cs;
  '(month, cs) ← digits 2 0 cs;
  cs ← expect "-" cs;
  '(date, cs) ← digits 2 0 cs;
  cs ← expect "T" cs;
  '(hour, cs) ← digits 2 0 cs;
  cs ← expect ":" cs;
  '(min, cs) ← digits 2 0 cs;
  cs ← expect ":" cs;
  '(sec, cs) ← digits 2 0 cs;
  '(ms, cs) ←
    match cs with
    | "."%char :: cs' =>
        match cs' with
        | c :: _ =>
            match digit c with
            | Some _ => Some (fraction cs' 100 0)
            | None => None
            end
        | [] => None
        end
    | _ => Some (0, cs)
    end;
  cs ← expect "Z" cs;
  match cs with
  | [] =>
      if (1 <=? month) && (month <=? 12)
         && (1 <=? date) && (date <=? DaysInMonth year month)
         && (hour <=? 23) && (min <=? 59) && (sec <=? 59)
      then Some (MakeDate (MakeDay year month date) (MakeTime hour min sec ms))
      else None
  | _ => None
  end.

(** A run of decimal digits: its value on top of [acc], and its length. *)
Fixpoint decimal_digits (cs : list ascii) (acc count : Z)
  : Z * Z * list ascii :=
  match cs with
  | c :: cs' =>
      match digit c with
      | Some d => decimal_digits cs' (10 * acc + d) (count + 1)
      | None => (acc, count, cs)
      end
  | [] => (acc, count, cs)
  end.

(** [Number(s)] on the empty string and on plain decimal literals
    ([-]digits[.digits]): the quotient of two integers, rounded once.  Any
    other text gives NaN here. *)
Definition StringToNumber (s : string) : number :=
  let cs := list_ascii_of_string s in
  let '(negative, cs) :=
    match cs with
    | "-"%char :: cs' => (true, cs')
    | _ => (false, cs)
    end in
  let '(int, int_len, cs) := decimal_digits cs 0 0 in
  let '(all, frac_len, cs) :=
    match cs with
    | "."%char :: cs' => decimal_digits cs' int 0
    | _ => (int, 0, cs)
    end in
  match s, cs with
  | EmptyString, _ => JS.zero
  | _, [] =>
      if int_len + frac_len =? 0 then JS.NaN
      else
        let x := SFdiv prec emax (of_Z all) (of_Z (10 ^ frac_len)) in
        if negative then SFopp x else x
  | _, _ => JS.NaN
  end.

(** What follows the first point of a text. *)
Fixpoint after_point (cs : list ascii) : list ascii :=
  match cs with
  | c :: cs' => if Ascii.eqb c "." then cs' else after_point cs'
  | [] => []
  end.

(** Modelled from the spec: [parseμs] is imported from [../handy], which is
    not among the sources.  The spec has it take the sub-millisecond part
    (0-999) out of the fraction of an ISO-8601-like time string: the fourth
    to sixth digit after the point. *)
Definition parseμs (dateString : string) : number :=
  let sub_ms := drop 3 (after_point (list_ascii_of_string dateString)) in
  of_Z (fst (fraction sub_ms 100 0)).

(** Modelled from the spec: [parseμs] is imported from [../handy], which is
    not among the sources.  The spec has it take digits out of a time
    string; handed [undefined] it has no string to read, and reading a
    property of [undefined] raises a TypeError. *)
Definition parseμs_undefined : (exception + number)%type := inl TypeError.

End Reference.

(** ** Statements in the words of the specification *)

(** "amount >= 0 and is not NaN" *)
Definition amount_valid (level : BookPriceLevel) : bool :=
  negb (JS.isNaN (amount level)) && JS.ge (amount level) JS.zero.

(** A timestamp that "passed validity checking (non-negative valueOf)". *)
Definition valid_timestamp (timestamp : Date) : Prop :=
  exists ms, valueOf timestamp = Some ms /\ 0 <= ms.

Definition cache_holds_only_valid (cache : gmap string Date) : Prop :=
  forall symbol timestamp,
    cache !! symbol = Some timestamp -> valid_timestamp timestamp.

(** What the mapper's own test lets into the cache: a time value that is
    not below zero, NaN included. *)
Definition not_negative_timestamp (timestamp : Date) : Prop :=
  valueOf timestamp = None \/ valid_timestamp timestamp.

(** "the logical negation of the input side tag" *)
Definition Side_negate (s : Side) : Side :=
  match s with sell => buy | buy => sell end.

Section Partition.
Variable StringToNumber : string -> number.

(** "Partition changes into bids (side tag = buy) and asks (side tag =
    sell), each mapped to {price, amount} pairs, preserving relative order" *)
Fixpoint partition_changes (changes : list CoinbaseUpdateBookLevel)
  : list BookPriceLevel * list BookPriceLevel :=
  match changes with
  | [] => ([], [])
  | (tag, p, a) :: changes' =>
      let level := {| price := StringToNumber p; amount := StringToNumber a |} in
      let '(bids, asks) := partition_changes changes' in
      match tag with
      | buy => (level :: bids, asks)
      | sell => (bids, level :: asks)
      end
  end.
End Partition.

(** ** Example inputs *)

Module Examples.

Definition localTimestamp : Date :=
  {| valueOf := Some 1704067200500; μs := Some (of_Z 0) |}.

Definition valid_update : CoinbaseLevel2Update.t :=
  {| CoinbaseLevel2Update.product_id := "BTC-USD";
     CoinbaseLevel2Update.time := "2024-01-01T00:00:00.123456Z";
     CoinbaseLevel2Update.changes := [(sell, "50001.00", "0")] |}.

(** The update of the specification's example, with the defective time. *)
Definition defective_update : CoinbaseLevel2Update.t :=
  {| CoinbaseLevel2Update.product_id := "BTC-USD";
     CoinbaseLevel2Update.time := "0001-01-01T00:00:00.000000Z";
     CoinbaseLevel2Update.changes := [(buy, "50000.00", "1.5")] |}.

(** An update whose time is no date at all. *)
Definition unparseable_update : CoinbaseLevel2Update.t :=
  {| CoinbaseLevel2Update.product_id := "BTC-USD";
     CoinbaseLevel2Update.time := "";
     CoinbaseLevel2Update.changes := [] |}.

(** Amounts that a snapshot would drop: not a number, negative, zero. *)
Definition odd_update : CoinbaseLevel2Update.t :=
  {| CoinbaseLevel2Update.product_id := "ETH-USD";
     CoinbaseLevel2Update.time := "2024-01-01T00:00:01.000250Z";
     CoinbaseLevel2Update.changes :=
       [(buy, "10", "abc"); (sell, "11", "-1"); (buy, "9", "0");
        (sell, "12", "2.5")] |}.

Definition book_snapshot : CoinbaseLevel2Snapshot.t :=
  {| CoinbaseLevel2Snapshot.product_id := "BTC-USD";
     CoinbaseLevel2Snapshot.bids :=
       [("50000.00", "1.5"); ("49999.00", "abc"); ("49998.00", "0")];
     CoinbaseLevel2Snapshot.asks :=
       [("50001.00", "-3"); ("50002.00", "2")];
     CoinbaseLevel2Snapshot.time := None |}.

(** 2024-01-01T00:00:00.123 with 456 microseconds. *)
Definition cached_timestamp : Date :=
  {| valueOf := Some 1704067200123; μs := Some (of_Z 456) |}.

(** The cache a fresh mapper holds after [valid_update]. *)
Definition cache_after_valid_update : gmap string Date :=
  snd (CoinbaseBookChangMapper.map Reference.Date_parse
         Reference.StringToNumber Reference.parseμs
         CoinbaseBookChangMapper.init
         (CoinbaseBookChangMapper.l2update valid_update) localTimestamp).

(** The event [odd_update] yields on a fresh mapper. *)
Definition odd_update_event : BookChange.t :=
  {| BookChange.type := "book_change";
     BookChange.symbol := "ETH-USD";
     BookChange.exchange := "coinbase";
     BookChange.isSnapshot := false;
     BookChange.bids :=
       [ {| price := of_Z 10; amount := JS.NaN |};
         {| price := of_Z 9; amount := JS.zero |} ];
     BookChange.asks :=
       [ {| price := of_Z 11; amount := SFopp (of_Z 1) |};
         {| price := of_Z 12; amount := SFdiv prec emax (of_Z 5) (of_Z 2) |} ];
     BookChange.timestamp :=
       {| valueOf := Some 1704067201000; μs := Some (of_Z 250) |};
     BookChange.localTimestamp := localTimestamp |}.

Definition defective_trade : CoinbaseTrade.t :=
  {| CoinbaseTrade.trade_id := of_Z 463751434;
     CoinbaseTrade.time := "0001-01-01T00:00:00.000000Z";
     CoinbaseTrade.product_id := "BTC-USD";
     CoinbaseTrade.size := "0.05";
     CoinbaseTrade.price := "17165.16";
     CoinbaseTrade.side := sell;
     CoinbaseTrade.rest := [("sequence", VNumber (of_Z 50978628538))] |}.

Definition ticker_at (time : option string) : CoinbaseTicker.t :=
  {| CoinbaseTicker.product_id := "BTC-USD";
     CoinbaseTicker.time := time;
     CoinbaseTicker.best_bid := Some "17165.15";
     CoinbaseTicker.best_ask := Some "17167.76";
     CoinbaseTicker.best_bid_size := None;
     CoinbaseTicker.best_ask_size := None |}.

End Examples.

(** ** Further vocabulary for the properties below *)

(** The keys of an object are pairwise distinct. *)
Definition distinct_keys (obj : JS.object) : Prop :=
  List.NoDup (List.map fst obj).

(** Whether [key] is one of [exclusionKeys]. *)
Definition excluded_key (exclusionKeys : list string) (key : string) : bool :=
  existsb (String.eqb key) exclusionKeys.

(** Whether a descriptor of [filters] names the channel of [message]. *)
Definition subscribed (filters : list Filter.t) (message : CoinbaseMessage)
  : bool :=
  existsb (fun f => String.eqb (message_type message) (Filter.channel f))
    filters.

Definition is_snapshot (msg : CoinbaseBookChangMapper.message) : bool :=
  match msg with
  | CoinbaseBookChangMapper.snapshot _ => true
  | CoinbaseBookChangMapper.l2update _ => false
  end.

Module MoreExamples.

(** A snapshot that carries a valid time of its own. *)
Definition timed_snapshot : CoinbaseLevel2Snapshot.t :=
  {| CoinbaseLevel2Snapshot.product_id := "BTC-USD";
     CoinbaseLevel2Snapshot.bids := [("50000.00", "1.5")];
     CoinbaseLevel2Snapshot.asks := [];
     CoinbaseLevel2Snapshot.time := Some "2024-01-01T00:00:00.123456Z" |}.

(** A trade message with properties beyond the declared ones. *)
Definition trade_with_extras : CoinbaseTrade.t :=
  {| CoinbaseTrade.trade_id := of_Z 463751434;
     CoinbaseTrade.time := "2022-12-01T00:00:00.122581Z";
     CoinbaseTrade.product_id := "BTC-USD";
     CoinbaseTrade.size := "0.05";
     CoinbaseTrade.price := "17165.16";
     CoinbaseTrade.side := buy;
     CoinbaseTrade.rest :=
       [("sequence", VNumber (of_Z 50978628538));
        ("maker_order_id", VString "a1");
        ("taker_order_id", VString "b2")] |}.


Definition invalid_date_timestamp : Date :=
  {| valueOf := None; μs := Some (of_Z 0) |}.

End MoreExamples.

(** * Properties *)

(** ** Numbers and text *)

Lemma validAmountsOnly_amount_valid (level : BookPriceLevel) :
  validAmountsOnly level = amount_valid level.
Proof.
  unfold validAmountsOnly, amount_valid, JS.lt, JS.ge, JS.zero.
  destruct (amount level) as [s | s | | s m e]; try destruct s; reflexivity.
Qed.

Lemma amount_valid_iff (level : BookPriceLevel) :
  amount_valid level = true <->
  JS.isNaN (amount level) = false /\ JS.ge (amount level) JS.zero = true.
Proof.
  unfold amount_valid. rewrite andb_true_iff, negb_true_iff. tauto.
Qed.

Lemma ascii_toUpperCase_idem (c : ascii) :
  ascii_toUpperCase (ascii_toUpperCase c) = ascii_toUpperCase c.
Proof.
  destruct c as [[] [] [] [] [] [] [] []]; reflexivity.
Qed.

Lemma toUpperCase_idem (s : string) :
  toUpperCase (toUpperCase s) = toUpperCase s.
Proof.
  induction s as [| c s IH]; simpl; [reflexivity |].
  now rewrite ascii_toUpperCase_idem, IH.
Qed.

Lemma upperCaseSymbols_idem (symbols : option (list string)) :
  upperCaseSymbols (upperCaseSymbols symbols) = upperCaseSymbols symbols.
Proof.
  destruct symbols as [l |]; simpl; [| reflexivity].
  f_equal. rewrite List.map_map.
  apply List.map_ext. intros s. apply toUpperCase_idem.
Qed.

Lemma timeValue_negative_true (t : timeValue) :
  timeValue_negative t = true <-> exists ms, t = Some ms /\ ms < 0.
Proof.
  destruct t as [ms |]; simpl.
  - rewrite Z.ltb_lt. split; [eauto | intros (? & [= <-] & ?); assumption].
  - split; [discriminate | intros (? & [=] & ?)].
Qed.

Lemma timeValue_negative_false (t : timeValue) :
  timeValue_negative t = false <->
  t = None \/ exists ms, t = Some ms /\ 0 <= ms.
Proof.
  destruct t as [ms |]; simpl.
  - rewrite Z.ltb_ge. split.
    + right. eauto.
    + intros [[=] | (? & [= <-] & ?)]. assumption.
  - split; [auto | reflexivity].
Qed.

(** ** The book-change mapper: timestamps and the cache *)

Section BookChangeTimestamps.
Variable Date_parse : string -> timeValue.
Variable StringToNumber : string -> number.
Variable parseμs : string -> number.

Local Abbreviation map :=
  (CoinbaseBookChangMapper.map Date_parse StringToNumber parseμs).
Local Abbreviation run :=
  (CoinbaseBookChangMapper.run Date_parse StringToNumber parseμs).
Local Abbreviation l2update := CoinbaseBookChangMapper.l2update.
Local Abbreviation snapshot := CoinbaseBookChangMapper.snapshot.

(** C1: an incremental update whose time parses to a negative epoch value,
    for a symbol that has a cached timestamp, yields exactly one BookChange
    carrying that cached timestamp (the whole Date, microsecond remainder
    included), and the call returns the cache as it found it. *)
Theorem l2update_negative_time_reuses_cached
    (cache : gmap string Date) (message : CoinbaseLevel2Update.t)
    (localTimestamp cached : Date) (ms : Z) :
  Date_parse (CoinbaseLevel2Update.time message) = Some ms ->
  ms < 0 ->
  cache !! CoinbaseLevel2Update.product_id message = Some cached ->
  exists event,
    map cache (l2update message) localTimestamp = ([event], cache)
    /\ BookChange.timestamp event = cached
    /\ BookChange.isSnapshot event = false
    /\ snd (map cache (l2update message) localTimestamp)
         !! CoinbaseLevel2Update.product_id message = Some cached.
Proof.
  intros Hparse Hneg Hcached.
  unfold CoinbaseBookChangMapper.map, new_Date; simpl.
  rewrite Hparse; simpl.
  apply Z.ltb_lt in Hneg. rewrite Hneg, Hcached.
  eexists; repeat split; assumption.
Qed.

(** C2: an incremental update whose time parses to a negative epoch value,
    for a symbol without a cached timestamp, yields no event and leaves the
    cache as it was. *)
Theorem l2update_negative_time_without_cached_is_dropped
    (cache : gmap string Date) (message : CoinbaseLevel2Update.t)
    (localTimestamp : Date) (ms : Z) :
  Date_parse (CoinbaseLevel2Update.time message) = Some ms ->
  ms < 0 ->
  cache !! CoinbaseLevel2Update.product_id message = None ->
  map cache (l2update message) localTimestamp = ([], cache).
Proof.
  intros Hparse Hneg Hnone.
  unfold CoinbaseBookChangMapper.map, new_Date; simpl.
  rewrite Hparse; simpl.
  apply Z.ltb_lt in Hneg. now rewrite Hneg, Hnone.
Qed.

(** C3: after an incremental update whose time parses to a non-negative
    epoch value, the cache entry of the message's symbol is the parsed
    timestamp with the microsecond remainder attached, whatever the cache
    held for that symbol before. *)
Theorem l2update_valid_time_is_cached
    (cache : gmap string Date) (message : CoinbaseLevel2Update.t)
    (localTimestamp : Date) (ms : Z) :
  Date_parse (CoinbaseLevel2Update.time message) = Some ms ->
  0 <= ms ->
  snd (map cache (l2update message) localTimestamp)
    !! CoinbaseLevel2Update.product_id message
  = Some {| valueOf := Some ms;
            μs := Some (parseμs (CoinbaseLevel2Update.time message)) |}.
Proof.
  intros Hparse Hpos.
  unfold CoinbaseBookChangMapper.map, new_Date, set_μs; simpl.
  rewrite Hparse; simpl.
  apply Z.ltb_ge in Hpos. rewrite Hpos; simpl.
  apply lookup_insert_eq.
Qed.

(** One call keeps every cached time value from being negative. *)
Lemma map_keeps_not_negative
    (cache : gmap string Date) (msg : CoinbaseBookChangMapper.message)
    (localTimestamp : Date) :
  (forall symbol timestamp, cache !! symbol = Some timestamp ->
     timeValue_negative (valueOf timestamp) = false) ->
  forall symbol timestamp,
    snd (map cache msg localTimestamp) !! symbol = Some timestamp ->
    timeValue_negative (valueOf timestamp) = false.
Proof.
  intros Hinv symbol timestamp.
  destruct msg as [m | m]; simpl; [apply Hinv |].
  destruct (timeValue_negative (Date_parse (CoinbaseLevel2Update.time m)))
    eqn:Hneg.
  - destruct (cache !! CoinbaseLevel2Update.product_id m); apply Hinv.
  - simpl. rewrite lookup_insert. case_decide as Heq.
    + intros [= <-]. exact Hneg.
    + apply Hinv.
Qed.

Lemma run_keeps_not_negative
    (calls : list (CoinbaseBookChangMapper.message * Date)) :
  forall cache : gmap string Date,
  (forall symbol timestamp, cache !! symbol = Some timestamp ->
     timeValue_negative (valueOf timestamp) = false) ->
  forall symbol timestamp,
    snd (run cache calls) !! symbol = Some timestamp ->
    timeValue_negative (valueOf timestamp) = false.
Proof.
  induction calls as [| [msg localTimestamp] calls IH]; intros cache Hinv.
  - exact Hinv.
  - simpl.
    pose proof (map_keeps_not_negative cache msg localTimestamp Hinv) as Hstep.
    destruct (map cache msg localTimestamp) as [events cache'].
    specialize (IH cache' Hstep).
    destruct (run cache' calls) as [events' cache'']. exact IH.
Qed.

(** C4, amended: whatever messages a mapper instance has processed, no
    timestamp in its cache has a negative time value: each one is either
    non-negative or NaN (the time of an Invalid Date, which the mapper's
    [valueOf() < 0] test lets through). *)
Theorem cache_timestamps_never_negative
    (calls : list (CoinbaseBookChangMapper.message * Date))
    (symbol : string) (timestamp : Date) :
  snd (run CoinbaseBookChangMapper.init calls) !! symbol = Some timestamp ->
  not_negative_timestamp timestamp.
Proof.
  intros Hlookup.
  apply timeValue_negative_false.
  eapply run_keeps_not_negative; [| exact Hlookup].
  intros s t. unfold CoinbaseBookChangMapper.init.
  rewrite lookup_empty. discriminate.
Qed.

End BookChangeTimestamps.

(** ** The book-change mapper: price levels *)

Lemma filter_sublist {A : Type} (f : A -> bool) (l : list A) :
  sublist (List.filter f l) l.
Proof.
  induction l as [| x l IH]; simpl.
  - constructor.
  - destruct (f x); now constructor.
Qed.

Section BookChangeLevels.
Variable Date_parse : string -> timeValue.
Variable StringToNumber : string -> number.
Variable parseμs : string -> number.

Local Abbreviation map :=
  (CoinbaseBookChangMapper.map Date_parse StringToNumber parseμs).
Local Abbreviation l2update := CoinbaseBookChangMapper.l2update.
Local Abbreviation snapshot := CoinbaseBookChangMapper.snapshot.

Lemma valid_levels_only (levels : list BookPriceLevel) :
  Forall (fun level => JS.isNaN (amount level) = false
                       /\ JS.ge (amount level) JS.zero = true)
    (List.filter validAmountsOnly levels).
Proof.
  apply List.Forall_forall. intros level Hin.
  apply List.filter_In in Hin as [_ Hvalid].
  rewrite validAmountsOnly_amount_valid in Hvalid.
  now apply amount_valid_iff.
Qed.

Lemma invalid_levels_absent (levels : list BookPriceLevel) :
  Forall (fun level => JS.isNaN (amount level) = true
                       \/ JS.lt (amount level) JS.zero = true ->
                       ~ In level (List.filter validAmountsOnly levels))
    levels.
Proof.
  apply List.Forall_forall. intros level _ Hbad Hin.
  apply List.filter_In in Hin as [_ Hvalid].
  unfold validAmountsOnly in Hvalid.
  destruct Hbad as [Hnan | Hneg].
  - rewrite Hnan in Hvalid. discriminate.
  - rewrite Hneg in Hvalid. destruct (JS.isNaN (amount level)); discriminate.
Qed.

(** C6: a snapshot yields one BookChange in which every bid and every ask
    has an amount that is not NaN and is >= 0; a level of the message whose
    parsed amount is NaN or negative is in neither output list; bids are
    taken from the message's bids alone and asks from its asks alone; and the
    levels kept stand in the order the message had them. *)
Theorem snapshot_levels_are_the_valid_ones_in_order
    (cache : gmap string Date) (message : CoinbaseLevel2Snapshot.t)
    (localTimestamp : Date) :
  let input_bids :=
    List.map (mapSnapshotBookLevel StringToNumber)
      (CoinbaseLevel2Snapshot.bids message) in
  let input_asks :=
    List.map (mapSnapshotBookLevel StringToNumber)
      (CoinbaseLevel2Snapshot.asks message) in
  let valid level :=
    JS.isNaN (amount level) = false /\ JS.ge (amount level) JS.zero = true in
  let invalid level :=
    JS.isNaN (amount level) = true \/ JS.lt (amount level) JS.zero = true in
  exists event,
    map cache (snapshot message) localTimestamp = ([event], cache)
    /\ Forall valid (BookChange.bids event)
    /\ Forall valid (BookChange.asks event)
    /\ Forall (fun level => invalid level -> ~ In level (BookChange.bids event))
         input_bids
    /\ Forall (fun level => invalid level -> ~ In level (BookChange.asks event))
         input_asks
    /\ BookChange.bids event = List.filter amount_valid input_bids
    /\ BookChange.asks event = List.filter amount_valid input_asks
    /\ sublist (BookChange.bids event) input_bids
    /\ sublist (BookChange.asks event) input_asks.
Proof.
  intros input_bids input_asks valid invalid.
  eexists; split; [reflexivity |]; simpl.
  fold input_bids input_asks.
  repeat split;
    try apply valid_levels_only;
    try apply invalid_levels_absent;
    try apply filter_sublist;
    apply List.filter_ext; intros level;
    apply validAmountsOnly_amount_valid.
Qed.

Lemma partition_changes_filter_map (changes : list CoinbaseUpdateBookLevel) :
  partition_changes StringToNumber changes
  = (List.map (mapUpdateBookLevel StringToNumber)
       (List.filter (fun c => Side_eqb (fst (fst c)) buy) changes),
     List.map (mapUpdateBookLevel StringToNumber)
       (List.filter (fun c => Side_eqb (fst (fst c)) sell) changes)).
Proof.
  induction changes as [| [[tag p] a] changes IH]; simpl; [reflexivity |].
  rewrite IH. destruct tag; reflexivity.
Qed.

Lemma partition_changes_length (changes : list CoinbaseUpdateBookLevel) :
  (length (fst (partition_changes StringToNumber changes))
   + length (snd (partition_changes StringToNumber changes)))%nat
  = length changes.
Proof.
  induction changes as [| [[tag p] a] changes IH]; simpl; [reflexivity |].
  destruct (partition_changes StringToNumber changes) as [bids asks].
  destruct tag; simpl in *; lia.
Qed.

Lemma partition_changes_keeps_all (changes : list CoinbaseUpdateBookLevel) :
  Forall (fun c =>
            let level := mapUpdateBookLevel StringToNumber c in
            match fst (fst c) with
            | buy => In level (fst (partition_changes StringToNumber changes))
            | sell => In level (snd (partition_changes StringToNumber changes))
            end) changes.
Proof.
  induction changes as [| [[tag p] a] changes IH]; simpl; constructor.
  - destruct (partition_changes StringToNumber changes) as [bids asks].
    destruct tag; simpl; now left.
  - eapply List.Forall_impl; [| exact IH].
    intros [[tag' p'] a']; simpl.
    destruct (partition_changes StringToNumber changes) as [bids asks].
    destruct tag, tag'; simpl; auto.
Qed.

(** C7: in an event yielded for an incremental update, bids and asks are
    the partition of the message's changes by side tag (buy to bids, sell to
    asks, not inverted), each change as {price, amount}, in the message's
    order; nothing is dropped, so the two lists together are as long as the
    changes, and every change is found on its side whatever its amount
    parses to (NaN, a negative number or 0 included). *)
Theorem l2update_levels_are_partitioned_not_filtered
    (cache : gmap string Date) (message : CoinbaseLevel2Update.t)
    (localTimestamp : Date) (event : BookChange.t) :
  In event (fst (map cache (l2update message) localTimestamp)) ->
  (BookChange.bids event, BookChange.asks event)
  = partition_changes StringToNumber (CoinbaseLevel2Update.changes message)
  /\ (length (BookChange.bids event) + length (BookChange.asks event))%nat
     = length (CoinbaseLevel2Update.changes message)
  /\ Forall (fun c =>
               let level := {| price := StringToNumber (snd (fst c));
                               amount := StringToNumber (snd c) |} in
               match fst (fst c) with
               | buy => In level (BookChange.bids event)
               | sell => In level (BookChange.asks event)
               end) (CoinbaseLevel2Update.changes message).
Proof.
  intros Hin.
  assert (Hlevels :
    (BookChange.bids event, BookChange.asks event)
    = partition_changes StringToNumber (CoinbaseLevel2Update.changes message)).
  { rewrite partition_changes_filter_map.
    unfold CoinbaseBookChangMapper.map in Hin.
    destruct (timeValue_negative _) in Hin;
      [destruct (cache !! _) in Hin |]; simpl in Hin;
      destruct Hin as [<- | []] || destruct Hin; reflexivity. }
  split; [exact Hlevels |].
  pose proof (partition_changes_length (CoinbaseLevel2Update.changes message))
    as Hlen.
  pose proof (partition_changes_keeps_all (CoinbaseLevel2Update.changes message))
    as Hall.
  rewrite <- Hlevels in Hlen, Hall. simpl in Hlen, Hall.
  split; [exact Hlen |].
  eapply List.Forall_impl; [| exact Hall].
  intros [[tag p] a]; simpl. auto.
Qed.

End BookChangeLevels.

(** ** The trade mapper *)

Section Trades.
Variable Date_parse : string -> timeValue.
Variable StringToNumber : string -> number.
Variable NumberToString : number -> string.
Variable parseμs : string -> number.

Local Abbreviation map :=
  (coinbaseTradesMapper.map Date_parse StringToNumber NumberToString parseμs).

(** C5: a matched-trade message yields exactly one Trade, whose side is the
    negation of the message's side: 'sell' gives 'buy', 'buy' gives 'sell'. *)
Theorem trade_side_is_negated
    (message : CoinbaseTrade.t) (localTimestamp : Date) :
  exists trade,
    map message localTimestamp = [trade]
    /\ Trade.side trade = Side_negate (CoinbaseTrade.side message)
    /\ Trade.side trade
       = match CoinbaseTrade.side message with sell => buy | buy => sell end.
Proof.
  eexists; split; [reflexivity |]; simpl.
  destruct (CoinbaseTrade.side message); split; reflexivity.
Qed.

(** On the declared type, where every message has a time string: a message
    always yields exactly one Trade, and its timestamp is the Date parsed
    from the time field, an Invalid Date or a negative one included, with
    the microsecond remainder attached; [localTimestamp] plays no part. *)
Theorem trade_timestamp_is_parsed_time
    (message : CoinbaseTrade.t) (localTimestamp : Date) :
  exists trade,
    map message localTimestamp = [trade]
    /\ Trade.timestamp trade
       = {| valueOf := Date_parse (CoinbaseTrade.time message);
            μs := Some (parseμs (CoinbaseTrade.time message)) |}
    /\ forall otherLocalTimestamp,
         List.map Trade.timestamp (map message otherLocalTimestamp)
         = [Trade.timestamp trade].
Proof.
  eexists; split; [reflexivity |]; simpl.
  split; [reflexivity |]. intros other. reflexivity.
Qed.

End Trades.

(** ** The book-ticker mapper *)

Section Tickers.
Variable Date_parse : string -> timeValue.
Variable StringToNumber : string -> number.
Variable parseμs : string -> number.

Local Abbreviation map :=
  (coinbaseBookTickerMapper.map Date_parse StringToNumber parseμs).


End Tickers.

(** ** Subscription filters *)

(** C9: for each of the three mappers, [getFilters] is a function of the
    symbol list alone (an absent list included), so two calls with the same
    argument give the same descriptors; every descriptor carries the
    uppercased list; and uppercasing is idempotent: applied to an already
    uppercased list it changes nothing, in the list and in the descriptors
    built from it. *)
Theorem getFilters_stable_under_normalization (symbols : option (list string)) :
  (forall again, again = symbols ->
     coinbaseTradesMapper.getFilters again
     = coinbaseTradesMapper.getFilters symbols
     /\ CoinbaseBookChangMapper.getFilters again
        = CoinbaseBookChangMapper.getFilters symbols
     /\ coinbaseBookTickerMapper.getFilters again
        = coinbaseBookTickerMapper.getFilters symbols)
  /\ upperCaseSymbols (upperCaseSymbols symbols) = upperCaseSymbols symbols
  /\ coinbaseTradesMapper.getFilters (upperCaseSymbols symbols)
     = coinbaseTradesMapper.getFilters symbols
  /\ CoinbaseBookChangMapper.getFilters (upperCaseSymbols symbols)
     = CoinbaseBookChangMapper.getFilters symbols
  /\ coinbaseBookTickerMapper.getFilters (upperCaseSymbols symbols)
     = coinbaseBookTickerMapper.getFilters symbols
  /\ Forall (fun f => Filter.symbols f = upperCaseSymbols symbols)
       (coinbaseTradesMapper.getFilters symbols
        ++ CoinbaseBookChangMapper.getFilters symbols
        ++ coinbaseBookTickerMapper.getFilters symbols)%list.
Proof.
  split; [intros again ->; repeat split |].
  unfold coinbaseTradesMapper.getFilters, CoinbaseBookChangMapper.getFilters,
    coinbaseBookTickerMapper.getFilters.
  rewrite upperCaseSymbols_idem.
  repeat split. repeat constructor.
Qed.

(** * The properties at work on the example inputs *)

Section Witnesses.
Import Examples.

Local Abbreviation map :=
  (CoinbaseBookChangMapper.map Reference.Date_parse Reference.StringToNumber
     Reference.parseμs).
Local Abbreviation run :=
  (CoinbaseBookChangMapper.run Reference.Date_parse Reference.StringToNumber
     Reference.parseμs).
Local Abbreviation l2update := CoinbaseBookChangMapper.l2update.
Local Abbreviation snapshot := CoinbaseBookChangMapper.snapshot.

(** The example of the specification: after a valid update at
    2024-01-01T00:00:00.123456Z, the update stamped 0001-01-01 yields one
    BookChange at 2024-01-01T00:00:00.123 with 456 microseconds, one bid of
    1.5 at 50000 and no asks. *)
Example defective_update_after_valid_update :
  fst (map cache_after_valid_update (l2update defective_update) localTimestamp)
  = [ {| BookChange.type := "book_change";
         BookChange.symbol := "BTC-USD";
         BookChange.exchange := "coinbase";
         BookChange.isSnapshot := false;
         BookChange.bids :=
           [ {| price := of_Z 50000;
                amount := SFdiv prec emax (of_Z 3) (of_Z 2) |} ];
         BookChange.asks := [];
         BookChange.timestamp := cached_timestamp;
         BookChange.localTimestamp := localTimestamp |} ].
Proof. vm_compute. reflexivity. Qed.

Lemma l2update_negative_time_reuses_cached_witness :
  Reference.Date_parse (CoinbaseLevel2Update.time defective_update)
  = Some (-62135596800000)
  /\ -62135596800000 < 0
  /\ cache_after_valid_update !! "BTC-USD" = Some cached_timestamp
  /\ exists event,
       map cache_after_valid_update (l2update defective_update) localTimestamp
       = ([event], cache_after_valid_update)
       /\ BookChange.timestamp event = cached_timestamp
       /\ BookChange.isSnapshot event = false
       /\ snd (map cache_after_valid_update (l2update defective_update)
                 localTimestamp) !! "BTC-USD" = Some cached_timestamp.
Proof.
  assert (Hparse :
    Reference.Date_parse (CoinbaseLevel2Update.time defective_update)
    = Some (-62135596800000)) by (vm_compute; reflexivity).
  assert (Hneg : -62135596800000 < 0) by lia.
  assert (Hcached :
    cache_after_valid_update
      !! CoinbaseLevel2Update.product_id defective_update
    = Some cached_timestamp) by (vm_compute; reflexivity).
  repeat apply conj; [exact Hparse | exact Hneg | exact Hcached |].
  exact (l2update_negative_time_reuses_cached Reference.Date_parse
           Reference.StringToNumber Reference.parseμs
           cache_after_valid_update defective_update localTimestamp
           cached_timestamp (-62135596800000) Hparse Hneg Hcached).
Defined.

Lemma l2update_negative_time_without_cached_is_dropped_witness :
  Reference.Date_parse (CoinbaseLevel2Update.time defective_update)
  = Some (-62135596800000)
  /\ -62135596800000 < 0
  /\ CoinbaseBookChangMapper.init !! "BTC-USD" = None
  /\ map CoinbaseBookChangMapper.init (l2update defective_update) localTimestamp
     = ([], CoinbaseBookChangMapper.init).
Proof.
  assert (Hparse :
    Reference.Date_parse (CoinbaseLevel2Update.time defective_update)
    = Some (-62135596800000)) by (vm_compute; reflexivity).
  assert (Hneg : -62135596800000 < 0) by lia.
  assert (Hnone :
    CoinbaseBookChangMapper.init
      !! CoinbaseLevel2Update.product_id defective_update
    = (None : option Date)) by reflexivity.
  repeat apply conj; [exact Hparse | exact Hneg | exact Hnone |].
  exact (l2update_negative_time_without_cached_is_dropped Reference.Date_parse
           Reference.StringToNumber Reference.parseμs
           CoinbaseBookChangMapper.init defective_update localTimestamp
           (-62135596800000) Hparse Hneg Hnone).
Defined.

Lemma l2update_valid_time_is_cached_witness :
  Reference.Date_parse (CoinbaseLevel2Update.time odd_update)
  = Some 1704067201000
  /\ 0 <= 1704067201000
  /\ snd (map cache_after_valid_update (l2update odd_update) localTimestamp)
       !! "ETH-USD"
     = Some {| valueOf := Some 1704067201000;
               μs := Some (Reference.parseμs "2024-01-01T00:00:01.000250Z") |}.
Proof.
  assert (Hparse :
    Reference.Date_parse (CoinbaseLevel2Update.time odd_update)
    = Some 1704067201000) by (vm_compute; reflexivity).
  assert (Hpos : 0 <= 1704067201000) by lia.
  repeat apply conj; [exact Hparse | exact Hpos |].
  exact (l2update_valid_time_is_cached Reference.Date_parse
           Reference.StringToNumber Reference.parseμs
           cache_after_valid_update odd_update localTimestamp
           1704067201000 Hparse Hpos).
Defined.

(** The time ["" ] is no date: the mapper caches an Invalid Date for the
    symbol, whose time value is NaN and so not a non-negative number. *)
Lemma cache_holds_invalid_date_after_unparseable_time :
  snd (run CoinbaseBookChangMapper.init
         [(l2update unparseable_update, localTimestamp)]) !! "BTC-USD"
  = Some {| valueOf := None; μs := Some (of_Z 0) |}
  /\ ~ cache_holds_only_valid
        (snd (run CoinbaseBookChangMapper.init
                [(l2update unparseable_update, localTimestamp)])).
Proof.
  assert (Hlookup :
    snd (run CoinbaseBookChangMapper.init
           [(l2update unparseable_update, localTimestamp)]) !! "BTC-USD"
    = Some {| valueOf := None; μs := Some (of_Z 0) |})
    by (vm_compute; reflexivity).
  split; [exact Hlookup |].
  intros Hvalid.
  destruct (Hvalid _ _ Hlookup) as (ms & Habsurd & _).
  discriminate Habsurd.
Qed.

Lemma cache_timestamps_never_negative_witness :
  snd (run CoinbaseBookChangMapper.init
         [(l2update valid_update, localTimestamp);
          (l2update defective_update, localTimestamp);
          (snapshot book_snapshot, localTimestamp)]) !! "BTC-USD"
  = Some cached_timestamp
  /\ not_negative_timestamp cached_timestamp.
Proof.
  assert (Hlookup :
    snd (run CoinbaseBookChangMapper.init
           [(l2update valid_update, localTimestamp);
            (l2update defective_update, localTimestamp);
            (snapshot book_snapshot, localTimestamp)]) !! "BTC-USD"
    = Some cached_timestamp) by (vm_compute; reflexivity).
  split; [exact Hlookup |].
  exact (cache_timestamps_never_negative Reference.Date_parse
           Reference.StringToNumber Reference.parseμs _ _ _ Hlookup).
Defined.

Lemma snapshot_levels_are_the_valid_ones_in_order_witness :
  exists event,
    map CoinbaseBookChangMapper.init (snapshot book_snapshot) localTimestamp
    = ([event], CoinbaseBookChangMapper.init)
    /\ BookChange.bids event
       = [ {| price := of_Z 50000;
              amount := SFdiv prec emax (of_Z 3) (of_Z 2) |};
           {| price := of_Z 49998; amount := JS.zero |} ]
    /\ BookChange.asks event
       = [ {| price := of_Z 50002; amount := of_Z 2 |} ].
Proof.
  destruct (snapshot_levels_are_the_valid_ones_in_order Reference.Date_parse
              Reference.StringToNumber Reference.parseμs
              CoinbaseBookChangMapper.init book_snapshot localTimestamp)
    as (event & Hmap & _ & _ & _ & _ & Hbids & Hasks & _).
  exists event. rewrite Hbids, Hasks.
  split; [exact Hmap |]. split; vm_compute; reflexivity.
Defined.

Lemma l2update_levels_are_partitioned_not_filtered_witness :
  In odd_update_event
    (fst (map CoinbaseBookChangMapper.init (l2update odd_update) localTimestamp))
  /\ (BookChange.bids odd_update_event, BookChange.asks odd_update_event)
     = partition_changes Reference.StringToNumber
         (CoinbaseLevel2Update.changes odd_update)
  /\ (length (BookChange.bids odd_update_event)
      + length (BookChange.asks odd_update_event))%nat = 4%nat
  /\ In {| price := Reference.StringToNumber "10";
           amount := Reference.StringToNumber "abc" |}
       (BookChange.bids odd_update_event)
  /\ In {| price := Reference.StringToNumber "11";
           amount := Reference.StringToNumber "-1" |}
       (BookChange.asks odd_update_event)
  /\ In {| price := Reference.StringToNumber "9";
           amount := Reference.StringToNumber "0" |}
       (BookChange.bids odd_update_event).
Proof.
  assert (Hin :
    In odd_update_event
      (fst (map CoinbaseBookChangMapper.init (l2update odd_update)
              localTimestamp))) by (left; vm_compute; reflexivity).
  split; [exact Hin |].
  destruct (l2update_levels_are_partitioned_not_filtered Reference.Date_parse
              Reference.StringToNumber Reference.parseμs
              CoinbaseBookChangMapper.init odd_update localTimestamp
              odd_update_event Hin) as (Hlevels & Hlen & Hall).
  split; [exact Hlevels |]. split; [exact Hlen |].
  inversion_clear Hall as [| ? ? Hfirst Hall1].
  inversion_clear Hall1 as [| ? ? Hsecond Hall2].
  inversion_clear Hall2 as [| ? ? Hthird _].
  split; [exact Hfirst |]. split; [exact Hsecond | exact Hthird].
Defined.

Lemma getFilters_stable_under_normalization_witness :
  upperCaseSymbols (Some ["btc-usd"; "Eth-Usd"]) = Some ["BTC-USD"; "ETH-USD"]
  /\ upperCaseSymbols (Some ["BTC-USD"; "ETH-USD"])
     = Some ["BTC-USD"; "ETH-USD"]
  /\ CoinbaseBookChangMapper.getFilters (Some ["BTC-USD"; "ETH-USD"])
     = CoinbaseBookChangMapper.getFilters (Some ["btc-usd"; "Eth-Usd"])
  /\ coinbaseTradesMapper.getFilters None
     = [ {| Filter.channel := "match"; Filter.symbols := None |} ].
Proof.
  destruct (getFilters_stable_under_normalization
              (Some ["btc-usd"; "Eth-Usd"]))
    as (_ & Hidem & _ & Hbook & _).
  destruct (getFilters_stable_under_normalization None)
    as (Hsame & _).
  split; [reflexivity |]. split; [exact Hidem |]. split; [exact Hbook |].
  exact (proj1 (Hsame None eq_refl)).
Defined.

(** A trade stamped with the defective time keeps that time: no fallback. *)
Example defective_trade_keeps_its_time :
  List.map (fun trade => (Trade.timestamp trade, Trade.side trade))
    (coinbaseTradesMapper.map Reference.Date_parse Reference.StringToNumber
       (fun _ => "463751434") Reference.parseμs defective_trade localTimestamp)
  = [ ({| valueOf := Some (-62135596800000); μs := Some (of_Z 0) |}, buy) ].
Proof. vm_compute. reflexivity. Qed.

(** The three cases of the ticker's timestamp. *)
Example ticker_timestamps :
  List.map BookTicker.timestamp
    (coinbaseBookTickerMapper.map Reference.Date_parse Reference.StringToNumber
       Reference.parseμs (ticker_at None) localTimestamp
     ++ coinbaseBookTickerMapper.map Reference.Date_parse
          Reference.StringToNumber Reference.parseμs
          (ticker_at (Some "0001-01-01T00:00:00.000000Z")) localTimestamp
     ++ coinbaseBookTickerMapper.map Reference.Date_parse
          Reference.StringToNumber Reference.parseμs
          (ticker_at (Some "2022-12-01T00:00:00.122581Z")) localTimestamp)%list
  = [ localTimestamp; localTimestamp;
      {| valueOf := Some 1669852800122; μs := Some (of_Z 581) |} ].
Proof. vm_compute. reflexivity. Qed.

End Witnesses.

(** * Further properties of the code *)

(** ** [pruneObject] *)

Lemma filter_filter_andb {A : Type} (f g : A -> bool) (l : list A) :
  List.filter f (List.filter g l) = List.filter (fun x => g x && f x) l.
Proof.
  induction l as [| x l IH]; simpl; [reflexivity |].
  destruct (g x); simpl; [destruct (f x) |]; now rewrite IH.
Qed.

Lemma pruneObject_cons (obj : JS.object) (key : string) (keys : list string) :
  pruneObject obj (key :: keys) = pruneObject (delete_property key obj) keys.
Proof. reflexivity. Qed.

Lemma pruneObject_filter (obj : JS.object) (exclusionKeys : list string) :
  pruneObject obj exclusionKeys
  = List.filter (fun kv => negb (excluded_key exclusionKeys (fst kv))) obj.
Proof.
  revert obj.
  induction exclusionKeys as [| key keys IH]; intros obj.
  - unfold pruneObject, excluded_key; simpl.
    induction obj as [| kv obj IHobj]; simpl; [reflexivity |].
    now rewrite <- IHobj.
  - rewrite pruneObject_cons, IH. unfold delete_property.
    rewrite filter_filter_andb.
    apply List.filter_ext. intros kv. unfold excluded_key; simpl.
    now rewrite negb_orb.
Qed.

Lemma excluded_key_In (exclusionKeys : list string) (key : string) :
  excluded_key exclusionKeys key = true <-> In key exclusionKeys.
Proof.
  unfold excluded_key. rewrite List.existsb_exists. split.
  - intros (k & Hin & Heq). apply String.eqb_eq in Heq. now subst.
  - intros Hin. exists key. split; [exact Hin | apply String.eqb_refl].
Qed.

Lemma pruneObject_In (obj : JS.object) (exclusionKeys : list string)
    (key : string) (v : JS.value) :
  In (key, v) (pruneObject obj exclusionKeys)
  <-> In (key, v) obj /\ ~ In key exclusionKeys.
Proof.
  rewrite pruneObject_filter, List.filter_In, negb_true_iff; simpl.
  rewrite <- excluded_key_In.
  destruct (excluded_key exclusionKeys key); intuition congruence.
Qed.

(** X1: [pruneObject] returns exactly the properties of [obj] whose key is
    not excluded, in the order [obj] has them: a property is in the result
    if and only if it is in [obj] under a key outside the exclusion list. *)
Theorem pruneObject_keeps_exactly_the_other_keys
    (obj : JS.object) (exclusionKeys : list string) :
  (forall key v,
     In (key, v) (pruneObject obj exclusionKeys)
     <-> In (key, v) obj /\ ~ In key exclusionKeys)
  /\ sublist (pruneObject obj exclusionKeys) obj.
Proof.
  split; [intros key v; apply pruneObject_In |].
  rewrite pruneObject_filter. apply filter_sublist.
Qed.

(** X2: pruning twice is pruning once with both exclusion lists; the order
    in which keys are excluded does not matter; and pruning again with the
    same list changes nothing. *)
Theorem pruneObject_composes
    (obj : JS.object) (keys1 keys2 : list string) :
  pruneObject (pruneObject obj keys1) keys2 = pruneObject obj (keys1 ++ keys2)%list
  /\ pruneObject (pruneObject obj keys1) keys2
     = pruneObject (pruneObject obj keys2) keys1
  /\ pruneObject (pruneObject obj keys1) keys1 = pruneObject obj keys1.
Proof.
  rewrite !pruneObject_filter, !filter_filter_andb.
  repeat split; apply List.filter_ext; intros kv; unfold excluded_key.
  - now rewrite List.existsb_app, negb_orb.
  - apply andb_comm.
  - apply andb_diag.
Qed.

(** ** The trade mapper: [exchangeSpecific] *)

Section TradeExchangeSpecific.
Variable Date_parse : string -> timeValue.
Variable StringToNumber : string -> number.
Variable NumberToString : number -> string.
Variable parseμs : string -> number.

Local Abbreviation map :=
  (coinbaseTradesMapper.map Date_parse StringToNumber NumberToString parseμs).

(** X3: for a trade message whose properties have pairwise distinct keys,
    the [exchangeSpecific] bag of the Trade holds the message's [time] and
    its properties beyond the declared ones, and nothing else; no property
    named type, trade_id, product_id, size, price or side is in it. *)
Theorem trade_exchangeSpecific_has_time_and_no_mapped_field
    (message : CoinbaseTrade.t) (localTimestamp : Date) :
  distinct_keys (CoinbaseTrade.props message) ->
  exists trade,
    map message localTimestamp = [trade]
    /\ (forall key v,
          In (key, v) (Trade.exchangeSpecific trade)
          <-> (key, v) = ("time", VString (CoinbaseTrade.time message))
              \/ In (key, v) (CoinbaseTrade.rest message))
    /\ Forall (fun key => forall v, ~ In (key, v) (Trade.exchangeSpecific trade))
         CoinbaseTradeExcluded.
Proof.
  intros Hdistinct.
  eexists; split; [reflexivity |]; cbn [Trade.exchangeSpecific].
  split.
  - intros key v. rewrite pruneObject_In. split.
    + intros [Hin Hout].
      unfold CoinbaseTrade.props in Hin. simpl in Hin.
      unfold CoinbaseTradeExcluded in Hout. simpl in Hout.
      destruct Hin as [[= <- _] | [[= <- _] | [Htime | [[= <- _] |
        [[= <- _] | [[= <- _] | [[= <- _] | Hrest]]]]]]];
        try (exfalso; apply Hout; tauto).
      * left. symmetry. exact Htime.
      * right. exact Hrest.
    + intros [[= -> ->] | Hrest].
      * split; [right; right; left; reflexivity |].
        unfold CoinbaseTradeExcluded; simpl.
        intros [H | [H | [H | [H | [H | [H | []]]]]]]; discriminate H.
      * split; [unfold CoinbaseTrade.props; simpl; tauto |].
        intros Hexcluded.
        assert (Hkey : In key (List.map fst (CoinbaseTrade.rest message)))
          by (apply List.in_map_iff; exists (key, v); split;
              [reflexivity | exact Hrest]).
        unfold distinct_keys, CoinbaseTrade.props in Hdistinct.
        simpl in Hdistinct.
        inversion_clear Hdistinct as [| ? ? Htype H1].
        inversion_clear H1 as [| ? ? Hid H2].
        inversion_clear H2 as [| ? ? _ H3].
        inversion_clear H3 as [| ? ? Hproduct H4].
        inversion_clear H4 as [| ? ? Hsize H5].
        inversion_clear H5 as [| ? ? Hprice H6].
        inversion_clear H6 as [| ? ? Hside _].
        unfold CoinbaseTradeExcluded in Hexcluded. simpl in Hexcluded, Htype,
          Hid, Hproduct, Hsize, Hprice, Hside.
        destruct Hexcluded as [<- | [<- | [<- | [<- | [<- | [<- | []]]]]]];
          tauto.
  - apply List.Forall_forall. intros key Hkey v Hin.
    apply pruneObject_In in Hin as [_ Hout].
    exact (Hout Hkey).
Qed.

End TradeExchangeSpecific.

(** ** Dispatch and subscriptions *)

(** X5: each mapper handles a message exactly when the message's type is
    one of the channels its [getFilters] subscribes to, whatever symbols are
    asked for. *)
Theorem mappers_handle_what_they_subscribe_to
    (symbols : option (list string)) (message : CoinbaseMessage) :
  coinbaseTradesMapper.canHandle message
  = subscribed (coinbaseTradesMapper.getFilters symbols) message
  /\ CoinbaseBookChangMapper.canHandle message
     = subscribed (CoinbaseBookChangMapper.getFilters symbols) message
  /\ coinbaseBookTickerMapper.canHandle message
     = subscribed (coinbaseBookTickerMapper.getFilters symbols) message.
Proof. destruct message; repeat split; reflexivity. Qed.

(** ** The book-change mapper: snapshots, the cache over time *)

Section BookChangeCache.
Variable Date_parse : string -> timeValue.
Variable StringToNumber : string -> number.
Variable parseμs : string -> number.

Local Abbreviation map :=
  (CoinbaseBookChangMapper.map Date_parse StringToNumber parseμs).
Local Abbreviation run :=
  (CoinbaseBookChangMapper.run Date_parse StringToNumber parseμs).
Local Abbreviation l2update := CoinbaseBookChangMapper.l2update.
Local Abbreviation snapshot := CoinbaseBookChangMapper.snapshot.

(** X6: a snapshot neither writes nor reads the cache: it always yields one
    event, returns the cache it was given, and the event is the same
    whatever that cache holds. *)
Theorem snapshot_neither_reads_nor_writes_cache
    (cache cache' : gmap string Date) (message : CoinbaseLevel2Snapshot.t)
    (localTimestamp : Date) :
  exists event,
    map cache (snapshot message) localTimestamp = ([event], cache)
    /\ map cache' (snapshot message) localTimestamp = ([event], cache').
Proof. eexists; split; reflexivity. Qed.

(** X7: the timestamp of a snapshot's event is [localTimestamp] itself when
    the snapshot has no time or its time parses to a negative epoch value;
    otherwise it is the parsed time (an Invalid Date included) with the
    microsecond remainder attached. *)
Theorem snapshot_timestamp_falls_back_to_local
    (cache : gmap string Date) (message : CoinbaseLevel2Snapshot.t)
    (localTimestamp : Date) :
  exists event,
    fst (map cache (snapshot message) localTimestamp) = [event]
    /\ BookChange.isSnapshot event = true
    /\ BookChange.timestamp event
       = match CoinbaseLevel2Snapshot.time message with
         | None => localTimestamp
         | Some time =>
             match Date_parse time with
             | Some ms =>
                 if ms <? 0 then localTimestamp
                 else {| valueOf := Some ms; μs := Some (parseμs time) |}
             | None => {| valueOf := None; μs := Some (parseμs time) |}
             end
         end.
Proof.
  eexists; split; [reflexivity |]; split; [reflexivity |]; simpl.
  destruct (CoinbaseLevel2Snapshot.time message) as [time |];
    [| reflexivity].
  unfold new_Date, set_μs; simpl.
  destruct (Date_parse time) as [ms |]; simpl;
    [destruct (ms <? 0) |]; reflexivity.
Qed.

(** X8: an incremental update whose time does not parse (Invalid Date) is
    treated as valid: it yields one event stamped with the Invalid Date and
    that Invalid Date replaces whatever the cache held for the symbol. *)
Theorem l2update_unparseable_time_is_yielded_and_cached
    (cache : gmap string Date) (message : CoinbaseLevel2Update.t)
    (localTimestamp : Date) :
  Date_parse (CoinbaseLevel2Update.time message) = None ->
  let invalid :=
    {| valueOf := None;
       μs := Some (parseμs (CoinbaseLevel2Update.time message)) |} in
  exists event,
    map cache (l2update message) localTimestamp
    = ([event],
       <[ CoinbaseLevel2Update.product_id message := invalid ]> cache)
    /\ BookChange.timestamp event = invalid.
Proof.
  intros Hnan invalid.
  unfold CoinbaseBookChangMapper.map, new_Date, set_μs; simpl.
  rewrite Hnan; simpl.
  eexists; split; reflexivity.
Qed.

(** X9: a call changes the cache, if at all, only at the symbol of its
    message: the entry of every other symbol is as before. *)
Theorem map_leaves_other_symbols_alone
    (cache : gmap string Date) (msg : CoinbaseBookChangMapper.message)
    (localTimestamp : Date) (symbol : string) :
  symbol <> CoinbaseBookChangMapper.product_id msg ->
  snd (map cache msg localTimestamp) !! symbol = cache !! symbol.
Proof.
  intros Hother.
  destruct msg as [m | m]; simpl in *; [reflexivity |].
  destruct (timeValue_negative _).
  - destruct (cache !! CoinbaseLevel2Update.product_id m); reflexivity.
  - simpl. apply lookup_insert_ne. congruence.
Qed.

Lemma map_keeps_entries
    (cache : gmap string Date) (msg : CoinbaseBookChangMapper.message)
    (localTimestamp : Date) (symbol : string) :
  is_Some (cache !! symbol) ->
  is_Some (snd (map cache msg localTimestamp) !! symbol).
Proof.
  intros Hsome.
  destruct msg as [m | m]; simpl; [exact Hsome |].
  destruct (timeValue_negative _).
  - destruct (cache !! CoinbaseLevel2Update.product_id m); exact Hsome.
  - simpl. rewrite lookup_insert. case_decide; [eauto | exact Hsome].
Qed.

Lemma run_keeps_entries
    (calls : list (CoinbaseBookChangMapper.message * Date)) (symbol : string) :
  forall cache : gmap string Date,
    is_Some (cache !! symbol) -> is_Some (snd (run cache calls) !! symbol).
Proof.
  induction calls as [| [msg localTimestamp] calls IH]; intros cache Hsome.
  - exact Hsome.
  - simpl.
    pose proof (map_keeps_entries cache msg localTimestamp symbol Hsome)
      as Hstep.
    destruct (map cache msg localTimestamp) as [events cache'].
    specialize (IH cache' Hstep).
    destruct (run cache' calls) as [events' cache'']. exact IH.
Qed.

Lemma l2update_cached_yields_one
    (cache : gmap string Date) (message : CoinbaseLevel2Update.t)
    (localTimestamp : Date) :
  is_Some (cache !! CoinbaseLevel2Update.product_id message) ->
  exists event, fst (map cache (l2update message) localTimestamp) = [event].
Proof.
  intros [cached Hcached]. simpl.
  destruct (timeValue_negative _).
  - rewrite Hcached. eexists; reflexivity.
  - eexists; reflexivity.
Qed.

(** X10: the mapper never removes a cache entry: a symbol that has a cached
    timestamp still has one after any further sequence of messages. *)
Theorem cache_entries_are_never_removed
    (cache : gmap string Date)
    (calls : list (CoinbaseBookChangMapper.message * Date)) (symbol : string) :
  is_Some (cache !! symbol) -> is_Some (snd (run cache calls) !! symbol).
Proof.
  revert cache.
  induction calls as [| [msg localTimestamp] calls IH]; intros cache Hsome.
  - exact Hsome.
  - simpl.
    pose proof (map_keeps_entries cache msg localTimestamp symbol Hsome)
      as Hstep.
    destruct (map cache msg localTimestamp) as [events cache'].
    specialize (IH cache' Hstep).
    destruct (run cache' calls) as [events' cache'']. exact IH.
Qed.

(** X11: once a symbol has a cached timestamp, no later incremental update
    for that symbol is dropped: after any further sequence of messages, an
    l2update for it yields exactly one event, whatever its time. *)
Theorem cached_symbol_is_never_dropped_again
    (cache : gmap string Date)
    (calls : list (CoinbaseBookChangMapper.message * Date))
    (message : CoinbaseLevel2Update.t) (localTimestamp : Date) :
  is_Some (cache !! CoinbaseLevel2Update.product_id message) ->
  exists event,
    fst (map (snd (run cache calls)) (l2update message) localTimestamp)
    = [event].
Proof.
  intros Hsome. apply l2update_cached_yields_one.
  now apply run_keeps_entries.
Qed.

(** X12: whenever an incremental update yields an event, the cache entry of
    its symbol after the call is that event's timestamp. *)
Theorem l2update_event_carries_the_cached_timestamp
    (cache : gmap string Date) (message : CoinbaseLevel2Update.t)
    (localTimestamp : Date) (event : BookChange.t) :
  In event (fst (map cache (l2update message) localTimestamp)) ->
  snd (map cache (l2update message) localTimestamp)
    !! CoinbaseLevel2Update.product_id message
  = Some (BookChange.timestamp event).
Proof.
  simpl. destruct (timeValue_negative _).
  - destruct (cache !! CoinbaseLevel2Update.product_id message) eqn:Hcached;
      simpl; [intros [<- | []]; exact Hcached | intros []].
  - simpl. intros [<- | []]. apply lookup_insert_eq.
Qed.

(** X14: an incremental update is dropped in one case only: its time parses
    to a negative epoch value and its symbol has no cached timestamp. *)
Theorem l2update_dropped_iff
    (cache : gmap string Date) (message : CoinbaseLevel2Update.t)
    (localTimestamp : Date) :
  fst (map cache (l2update message) localTimestamp) = []
  <-> (exists ms,
         Date_parse (CoinbaseLevel2Update.time message) = Some ms /\ ms < 0)
      /\ cache !! CoinbaseLevel2Update.product_id message = None.
Proof.
  rewrite <- timeValue_negative_true. simpl.
  destruct (timeValue_negative _).
  - destruct (cache !! CoinbaseLevel2Update.product_id message); simpl;
      intuition discriminate.
  - simpl. intuition discriminate.
Qed.

End BookChangeCache.

Section BookChangeRuns.
Variable Date_parse : string -> timeValue.
Variable StringToNumber : string -> number.
Variable parseμs : string -> number.

Local Abbreviation map :=
  (CoinbaseBookChangMapper.map Date_parse StringToNumber parseμs).
Local Abbreviation run :=
  (CoinbaseBookChangMapper.run Date_parse StringToNumber parseμs).
Local Abbreviation l2update := CoinbaseBookChangMapper.l2update.
Local Abbreviation snapshot := CoinbaseBookChangMapper.snapshot.

Lemma map_incremental_events_not_negative
    (cache : gmap string Date) (msg : CoinbaseBookChangMapper.message)
    (localTimestamp : Date) :
  (forall symbol timestamp, cache !! symbol = Some timestamp ->
     timeValue_negative (valueOf timestamp) = false) ->
  Forall (fun event =>
            BookChange.isSnapshot event = false ->
            timeValue_negative (valueOf (BookChange.timestamp event)) = false)
    (fst (map cache msg localTimestamp)).
Proof.
  intros Hinv. destruct msg as [m | m]; simpl.
  - repeat constructor. simpl. discriminate.
  - destruct (timeValue_negative (Date_parse (CoinbaseLevel2Update.time m)))
      eqn:Hneg.
    + destruct (cache !! CoinbaseLevel2Update.product_id m) as [cached |]
        eqn:Hcached; simpl; repeat constructor.
      simpl. intros _. exact (Hinv _ _ Hcached).
    + simpl. repeat constructor. simpl. intros _. exact Hneg.
Qed.

Lemma run_incremental_events_not_negative
    (calls : list (CoinbaseBookChangMapper.message * Date)) :
  forall cache : gmap string Date,
  (forall symbol timestamp, cache !! symbol = Some timestamp ->
     timeValue_negative (valueOf timestamp) = false) ->
  Forall (fun event =>
            BookChange.isSnapshot event = false ->
            timeValue_negative (valueOf (BookChange.timestamp event)) = false)
    (fst (run cache calls)).
Proof.
  induction calls as [| [msg localTimestamp] calls IH]; intros cache Hinv.
  - constructor.
  - simpl.
    pose proof (map_incremental_events_not_negative cache msg localTimestamp
                  Hinv) as Hevents.
    pose proof (map_keeps_not_negative Date_parse StringToNumber parseμs
                  cache msg localTimestamp Hinv) as Hstep.
    destruct (map cache msg localTimestamp) as [events cache'].
    specialize (IH cache' Hstep).
    destruct (run cache' calls) as [events' cache'']. simpl in *.
    apply List.Forall_app. split; assumption.
Qed.

(** X13: whatever messages a fresh mapper is fed, no event it yields for an
    incremental update carries a negative time: the timestamp of such an
    event is non-negative or that of an Invalid Date. *)
Theorem incremental_events_never_carry_negative_time
    (calls : list (CoinbaseBookChangMapper.message * Date))
    (event : BookChange.t) :
  In event (fst (run CoinbaseBookChangMapper.init calls)) ->
  BookChange.isSnapshot event = false ->
  not_negative_timestamp (BookChange.timestamp event).
Proof.
  intros Hin Hincremental.
  apply timeValue_negative_false.
  assert (Hall := run_incremental_events_not_negative calls
                    CoinbaseBookChangMapper.init).
  rewrite List.Forall_forall in Hall.
  apply Hall; [| exact Hin | exact Hincremental].
  intros s t. unfold CoinbaseBookChangMapper.init.
  rewrite lookup_empty. discriminate.
Qed.

Lemma run_snapshots_keep_cache
    (calls : list (CoinbaseBookChangMapper.message * Date)) :
  forall cache : gmap string Date,
    Forall (fun call => is_snapshot (fst call) = true) calls ->
    snd (run cache calls) = cache.
Proof.
  induction calls as [| [msg localTimestamp] calls IH]; intros cache Hall.
  - reflexivity.
  - inversion_clear Hall as [| ? ? Hmsg Hrest]. simpl in Hmsg.
    destruct msg as [m | m]; [| discriminate]. simpl.
    specialize (IH cache Hrest).
    destruct (run cache calls) as [events' cache'']. exact IH.
Qed.

(** X15: snapshots do not seed the cache: on a mapper that has seen
    snapshots only, even snapshots with a valid time, an incremental update
    whose time parses to a negative epoch value is still dropped. *)
Theorem snapshots_do_not_seed_the_cache
    (calls : list (CoinbaseBookChangMapper.message * Date))
    (message : CoinbaseLevel2Update.t) (localTimestamp : Date) (ms : Z) :
  Forall (fun call => is_snapshot (fst call) = true) calls ->
  Date_parse (CoinbaseLevel2Update.time message) = Some ms ->
  ms < 0 ->
  map (snd (run CoinbaseBookChangMapper.init calls)) (l2update message)
    localTimestamp
  = ([], CoinbaseBookChangMapper.init).
Proof.
  intros Hsnapshots Hparse Hneg.
  rewrite (run_snapshots_keep_cache calls _ Hsnapshots).
  unfold CoinbaseBookChangMapper.map, new_Date; simpl.
  rewrite Hparse; simpl. apply Z.ltb_lt in Hneg. rewrite Hneg.
  reflexivity.
Qed.

End BookChangeRuns.

(** ** The snapshot filter on the kinds of Number *)

(** X16: [validAmountsOnly] keeps a level exactly when its amount is a zero
    of either sign, +Infinity or a positive finite number; it drops NaN,
    -Infinity and every negative finite number. *)
Theorem validAmountsOnly_by_kind_of_amount (level : BookPriceLevel) :
  validAmountsOnly level
  = match amount level with
    | S754_zero _ => true
    | S754_infinity negative => negb negative
    | S754_nan => false
    | S754_finite negative _ _ => negb negative
    end.
Proof.
  unfold validAmountsOnly, JS.lt, JS.zero.
  destruct (amount level) as [s | s | | s m e]; try destruct s; reflexivity.
Qed.

(** * The further properties at work on the example inputs *)

Section MoreWitnesses.
Import Examples MoreExamples.

Local Abbreviation map :=
  (CoinbaseBookChangMapper.map Reference.Date_parse Reference.StringToNumber
     Reference.parseμs).
Local Abbreviation run :=
  (CoinbaseBookChangMapper.run Reference.Date_parse Reference.StringToNumber
     Reference.parseμs).
Local Abbreviation l2update := CoinbaseBookChangMapper.l2update.
Local Abbreviation snapshot := CoinbaseBookChangMapper.snapshot.

Lemma pruneObject_keeps_exactly_the_other_keys_witness :
  In ("time", VString "t")
    (pruneObject [("type", VString "match"); ("time", VString "t")] ["type"])
  /\ ~ In ("type", VString "match")
         (pruneObject [("type", VString "match"); ("time", VString "t")]
            ["type"]).
Proof.
  destruct (pruneObject_keeps_exactly_the_other_keys
              [("type", VString "match"); ("time", VString "t")] ["type"])
    as [Hiff _].
  split.
  - apply Hiff. split; [right; left; reflexivity |].
    intros [Habsurd | []]. discriminate Habsurd.
  - intros Hin. apply Hiff in Hin as [_ Hout]. apply Hout. left. reflexivity.
Defined.

Lemma trade_exchangeSpecific_has_time_and_no_mapped_field_witness :
  distinct_keys (CoinbaseTrade.props trade_with_extras)
  /\ exists trade,
       coinbaseTradesMapper.map Reference.Date_parse Reference.StringToNumber
         (fun _ => "463751434") Reference.parseμs trade_with_extras
         localTimestamp
       = [trade]
       /\ In ("time", VString "2022-12-01T00:00:00.122581Z")
            (Trade.exchangeSpecific trade)
       /\ In ("maker_order_id", VString "a1") (Trade.exchangeSpecific trade)
       /\ ~ In ("side", VString "buy") (Trade.exchangeSpecific trade).
Proof.
  assert (Hdistinct : distinct_keys (CoinbaseTrade.props trade_with_extras)).
  { unfold distinct_keys. simpl.
    repeat (constructor;
            [simpl; intros Hin;
             repeat (destruct Hin as [Hin | Hin]; [discriminate Hin |]);
             exact Hin |]).
    constructor. }
  split; [exact Hdistinct |].
  destruct (trade_exchangeSpecific_has_time_and_no_mapped_field
              Reference.Date_parse Reference.StringToNumber
              (fun _ => "463751434") Reference.parseμs trade_with_extras
              localTimestamp Hdistinct) as (trade & Hmap & Hbag & Hnone).
  exists trade. split; [exact Hmap |].
  split; [apply Hbag; left; reflexivity |].
  split; [apply Hbag; right; simpl; tauto |].
  rewrite List.Forall_forall in Hnone.
  apply Hnone. unfold CoinbaseTradeExcluded. simpl. tauto.
Defined.

Lemma l2update_unparseable_time_is_yielded_and_cached_witness :
  Reference.Date_parse (CoinbaseLevel2Update.time unparseable_update) = None
  /\ cache_after_valid_update !! "BTC-USD" = Some cached_timestamp
  /\ exists event,
       map cache_after_valid_update (l2update unparseable_update)
         localTimestamp
       = ([event], <[ "BTC-USD" := invalid_date_timestamp ]>
                     cache_after_valid_update)
       /\ BookChange.timestamp event = invalid_date_timestamp.
Proof.
  assert (Hnan :
    Reference.Date_parse (CoinbaseLevel2Update.time unparseable_update)
    = None) by reflexivity.
  split; [exact Hnan |].
  split; [vm_compute; reflexivity |].
  exact (l2update_unparseable_time_is_yielded_and_cached
           Reference.Date_parse Reference.StringToNumber Reference.parseμs
           cache_after_valid_update unparseable_update localTimestamp Hnan).
Defined.

Lemma map_leaves_other_symbols_alone_witness :
  "BTC-USD" <> "ETH-USD"
  /\ snd (map cache_after_valid_update (l2update odd_update) localTimestamp)
       !! "BTC-USD"
     = cache_after_valid_update !! "BTC-USD".
Proof.
  assert (Hother : "BTC-USD" <> "ETH-USD") by discriminate.
  split; [exact Hother |].
  exact (map_leaves_other_symbols_alone Reference.Date_parse
           Reference.StringToNumber Reference.parseμs
           cache_after_valid_update (l2update odd_update) localTimestamp
           "BTC-USD" Hother).
Defined.

Lemma cache_entries_are_never_removed_witness :
  is_Some (cache_after_valid_update !! "BTC-USD")
  /\ is_Some
       (snd (run cache_after_valid_update
               [(l2update defective_update, localTimestamp);
                (snapshot book_snapshot, localTimestamp);
                (l2update odd_update, localTimestamp)]) !! "BTC-USD").
Proof.
  assert (Hsome : is_Some (cache_after_valid_update !! "BTC-USD"))
    by (exists cached_timestamp; vm_compute; reflexivity).
  split; [exact Hsome |].
  exact (cache_entries_are_never_removed Reference.Date_parse
           Reference.StringToNumber Reference.parseμs
           cache_after_valid_update _ "BTC-USD" Hsome).
Defined.

Lemma cached_symbol_is_never_dropped_again_witness :
  is_Some (cache_after_valid_update !! "BTC-USD")
  /\ exists event,
       fst (map (snd (run cache_after_valid_update
                        [(l2update odd_update, localTimestamp);
                         (snapshot book_snapshot, localTimestamp)]))
              (l2update defective_update) localTimestamp)
       = [event].
Proof.
  assert (Hsome :
    is_Some (cache_after_valid_update
               !! CoinbaseLevel2Update.product_id defective_update))
    by (exists cached_timestamp; vm_compute; reflexivity).
  split; [exact Hsome |].
  exact (cached_symbol_is_never_dropped_again Reference.Date_parse
           Reference.StringToNumber Reference.parseμs
           cache_after_valid_update _ defective_update localTimestamp Hsome).
Defined.

Lemma l2update_event_carries_the_cached_timestamp_witness :
  In odd_update_event
    (fst (map CoinbaseBookChangMapper.init (l2update odd_update)
            localTimestamp))
  /\ snd (map CoinbaseBookChangMapper.init (l2update odd_update)
            localTimestamp) !! "ETH-USD"
     = Some {| valueOf := Some 1704067201000; μs := Some (of_Z 250) |}.
Proof.
  assert (Hin :
    In odd_update_event
      (fst (map CoinbaseBookChangMapper.init (l2update odd_update)
              localTimestamp))) by (left; vm_compute; reflexivity).
  split; [exact Hin |].
  exact (l2update_event_carries_the_cached_timestamp Reference.Date_parse
           Reference.StringToNumber Reference.parseμs
           CoinbaseBookChangMapper.init odd_update localTimestamp
           odd_update_event Hin).
Defined.

Lemma l2update_dropped_iff_witness :
  fst (map CoinbaseBookChangMapper.init (l2update defective_update)
         localTimestamp) = []
  /\ fst (map cache_after_valid_update (l2update defective_update)
            localTimestamp) <> [].
Proof.
  split.
  - apply (l2update_dropped_iff Reference.Date_parse Reference.StringToNumber
             Reference.parseμs).
    split; [| reflexivity].
    exists (-62135596800000). split; [vm_compute; reflexivity | lia].
  - intros Hdropped.
    apply (l2update_dropped_iff Reference.Date_parse Reference.StringToNumber
             Reference.parseμs) in Hdropped as [_ Hnone].
    vm_compute in Hnone. discriminate Hnone.
Defined.

Lemma incremental_events_never_carry_negative_time_witness :
  In odd_update_event
    (fst (run CoinbaseBookChangMapper.init
            [(snapshot book_snapshot, localTimestamp);
             (l2update defective_update, localTimestamp);
             (l2update odd_update, localTimestamp)]))
  /\ BookChange.isSnapshot odd_update_event = false
  /\ not_negative_timestamp (BookChange.timestamp odd_update_event).
Proof.
  assert (Hin :
    In odd_update_event
      (fst (run CoinbaseBookChangMapper.init
              [(snapshot book_snapshot, localTimestamp);
               (l2update defective_update, localTimestamp);
               (l2update odd_update, localTimestamp)])))
    by (right; left; vm_compute; reflexivity).
  assert (Hincremental : BookChange.isSnapshot odd_update_event = false)
    by reflexivity.
  split; [exact Hin |]. split; [exact Hincremental |].
  exact (incremental_events_never_carry_negative_time Reference.Date_parse
           Reference.StringToNumber Reference.parseμs _ odd_update_event
           Hin Hincremental).
Defined.

Lemma snapshots_do_not_seed_the_cache_witness :
  Forall (fun call => is_snapshot (fst call) = true)
    [(snapshot timed_snapshot, localTimestamp);
     (snapshot book_snapshot, localTimestamp)]
  /\ Reference.Date_parse (CoinbaseLevel2Update.time defective_update)
     = Some (-62135596800000)
  /\ -62135596800000 < 0
  /\ map (snd (run CoinbaseBookChangMapper.init
                 [(snapshot timed_snapshot, localTimestamp);
                  (snapshot book_snapshot, localTimestamp)]))
       (l2update defective_update) localTimestamp
     = ([], CoinbaseBookChangMapper.init).
Proof.
  assert (Hsnapshots :
    Forall (fun call => is_snapshot (fst call) = true)
      [(snapshot timed_snapshot, localTimestamp);
       (snapshot book_snapshot, localTimestamp)])
    by (repeat constructor).
  assert (Hparse :
    Reference.Date_parse (CoinbaseLevel2Update.time defective_update)
    = Some (-62135596800000)) by (vm_compute; reflexivity).
  assert (Hneg : -62135596800000 < 0) by lia.
  repeat apply conj; [exact Hsnapshots | exact Hparse | exact Hneg |].
  exact (snapshots_do_not_seed_the_cache Reference.Date_parse
           Reference.StringToNumber Reference.parseμs _ defective_update
           localTimestamp (-62135596800000) Hsnapshots Hparse Hneg).
Defined.

End MoreWitnesses.

(** * The trade mapper on received messages *)

Section ReceivedTrades.
Variable Date_parse : string -> timeValue.
Variable StringToNumber : string -> number.
Variable NumberToString : number -> string.
Variable parseμs : string -> number.
Variable parseμs_undefined : (exception + number)%type.

Local Abbreviation map :=
  (coinbaseTradesMapperReceived.map Date_parse StringToNumber NumberToString
     parseμs parseμs_undefined).

(** On a message of the declared type the mapper on received messages is
    the mapper on the declared type: it raises nothing and yields the same
    events. *)
Lemma map_received_of_declared
    (message : CoinbaseTrade.t) (localTimestamp : Date) :
  map (ReceivedTrade.of_declared message) localTimestamp
  = inr (coinbaseTradesMapper.map Date_parse StringToNumber NumberToString
           parseμs message localTimestamp).
Proof. reflexivity. Qed.

(** Without [time], the call ends as [parseμs(undefined)] ends: with its
    exception and no event, or with one Trade stamped with an Invalid Date. *)
Lemma map_received_without_time
    (message : ReceivedTrade.t) (localTimestamp : Date) :
  ReceivedTrade.time message = None ->
  match parseμs_undefined with
  | inl thrown => map message localTimestamp = inl thrown
  | inr remainder =>
      exists trade,
        map message localTimestamp = inr [trade]
        /\ Trade.timestamp trade
           = {| valueOf := None; μs := Some remainder |}
  end.
Proof.
  intros Hnone. unfold coinbaseTradesMapperReceived.map.
  rewrite Hnone; simpl.
  destruct parseμs_undefined as [thrown | remainder];
    [reflexivity | eexists; split; reflexivity].
Qed.


End ReceivedTrades.

Section ReceivedTradeWitnesses.
Import Examples MoreExamples.

Local Abbreviation map :=
  (coinbaseTradesMapperReceived.map Reference.Date_parse
     Reference.StringToNumber (fun _ => "463751434") Reference.parseμs
     Reference.parseμs_undefined).



End ReceivedTradeWitnesses.
